(** * Broadlink LIFAair purifier fan entity

    A shallow embedding of
    [homeassistant/components/broadlink/fan.py]: the two scale
    conversions, the enum-name conversions, the state-update handler and
    the entity actions that sequence vendor calls. *)

From Stdlib Require Import ZArith Lia Ascii String.
From stdpp Require Import base decidable option list strings gmap.

Local Open Scope string_scope.
Local Open Scope list_scope.
Local Open Scope Z_scope.

(** ** Python arithmetic *)

(** [round(n / d)] for Python ints [n] and [d > 0]: true division followed
    by the built-in [round], which rounds a tie to the even neighbour.

    The quotient is a float in Python.  Integer true division is correctly
    rounded, so the float is the double closest to the rational [n/d].  A
    tie [k + 1/2] is a double, hence computed exactly; away from a tie the
    rational is at least [1/(2d)] from every [k + 1/2] (lemma
    [round_margin] below makes this precise for the two conversions), which
    the relative error [2^-53] of the division cannot bridge while
    [|n| < 2^40].  On that range, which contains everything the claims
    quantify over, the function below is what Python computes. *)
Definition py_round_div (n d : Z) : Z :=
  let q := n / d in
  let r := n mod d in
  if 2 * r <? d then q
  else if d <? 2 * r then q + 1
  else if Z.even q then q else q + 1.

Definition MAX_FAN_SPEED : Z := 121.

(** [round(MAX_FAN_SPEED * percentage / 100)] *)
Definition _fan_percentage_to_speed (percentage : Z) : Z :=
  py_round_div (MAX_FAN_SPEED * percentage) 100.

(** [round(100 * fan_speed / MAX_FAN_SPEED)] *)
Definition _fan_speed_to_percentage (fan_speed : Z) : Z :=
  py_round_div (100 * fan_speed) MAX_FAN_SPEED.

(** ** Python strings *)

(** [str.upper] and [str.lower] on ASCII text: only the 26 letters move.
    (Enum member names and preset names are ASCII; bytes above 127 are
    left alone by the model.) *)
Definition is_ascii_lower (c : ascii) : bool :=
  let n := N_of_ascii c in ((97 <=? n) && (n <=? 122))%N.

Definition is_ascii_upper (c : ascii) : bool :=
  let n := N_of_ascii c in ((65 <=? n) && (n <=? 90))%N.

Definition is_ascii_digit (c : ascii) : bool :=
  let n := N_of_ascii c in ((48 <=? n) && (n <=? 57))%N.

Definition char_upper (c : ascii) : ascii :=
  if is_ascii_lower c then ascii_of_N (N_of_ascii c - 32) else c.

Definition char_lower (c : ascii) : ascii :=
  if is_ascii_upper c then ascii_of_N (N_of_ascii c + 32) else c.

Fixpoint str_map (f : ascii → ascii) (s : string) : string :=
  match s with
  | EmptyString => EmptyString
  | String c s' => String (f c) (str_map f s')
  end.

Definition upper : string → string := str_map char_upper.
Definition lower : string → string := str_map char_lower.

(** The characters of an uppercase identifier such as [ANTI_ALLERGY]:
    capital letters, digits and the underscore. *)
Definition upper_ident_char (c : ascii) : bool :=
  is_ascii_upper c || is_ascii_digit c || bool_decide (c = "_"%char).

Fixpoint str_forall (P : ascii → bool) (s : string) : bool :=
  match s with
  | EmptyString => true
  | String c s' => P c && str_forall P s'
  end.

Definition uppercase_identifier (s : string) : bool :=
  str_forall upper_ident_char s.

(** ** Exceptions *)

Inductive Exn :=
| KeyError (key : string)     (* enum lookup by an unknown name *)
| AttributeError              (* [.name] of a value that is not an enum member *)
| TypeError                   (* arithmetic on a value that is not a number *)
| RequestError (code : Z).    (* raised by the device request channel *)

Inductive Outcome (A : Type) :=
| Return (a : A)
| Raise (e : Exn).
Arguments Return {A} a.
Arguments Raise {A} e.

(** ** The vendor enum *)

(** [broadlink.purifier.FanMode] is imported, not defined, by the module.
    It is taken as a parameter: a type with decidable equality, its
    members in definition order (the order [for e in FanMode] yields), the
    [.name] of each member, and the four members the module mentions. *)
Class FanModeEnum (FanMode : Type) := {
  FanMode_eq_dec :: EqDecision FanMode;
  FanMode_members : list FanMode;
  FanMode_name : FanMode → string;
  OFF : FanMode;
  AUTO : FanMode;
  MANUAL : FanMode;
  UNKNOWN : FanMode }.

(** What Python's [enum] guarantees of such a class: member names are
    pairwise distinct, and a member written [FanMode.X] is a member named
    [X]. *)
Record FanModeEnum_wf `{FanModeEnum FanMode} : Prop := {
  names_unique : NoDup (FanMode_name <$> FanMode_members);
  OFF_member : OFF ∈ FanMode_members;
  AUTO_member : AUTO ∈ FanMode_members;
  MANUAL_member : MANUAL ∈ FanMode_members;
  UNKNOWN_member : UNKNOWN ∈ FanMode_members;
  OFF_name : FanMode_name OFF = "OFF";
  AUTO_name : FanMode_name AUTO = "AUTO";
  MANUAL_name : FanMode_name MANUAL = "MANUAL";
  UNKNOWN_name : FanMode_name UNKNOWN = "UNKNOWN" }.
Arguments FanModeEnum_wf FanMode {_}.

Section Adapter.
Context `{FanModeEnum FanMode}.

(** [FanMode[key]]: the member of that name, [KeyError] when there is none. *)
Definition FanMode_getitem (key : string) : Outcome FanMode :=
  match List.find (λ m, bool_decide (FanMode_name m = key)) FanMode_members with
  | Some m => Return m
  | None => Raise (KeyError key)
  end.

(** [fan_mode.name.lower()] *)
Definition _fan_mode_to_name (fan_mode : FanMode) : string :=
  lower (FanMode_name fan_mode).

(** [FanMode[fan_mode_name.upper()]] *)
Definition _fan_name_to_mode (fan_mode_name : string) : Outcome FanMode :=
  FanMode_getitem (upper fan_mode_name).

(** [[_fan_mode_to_name(e) for e in FanMode
      if e not in (FanMode.OFF, FanMode.UNKNOWN)]] *)
Definition _attr_preset_modes : list string :=
  _fan_mode_to_name <$>
    filter (λ e, ¬ (e = OFF ∨ e = UNKNOWN)) FanMode_members.

(** ** State snapshots and entity attributes *)

(** Values found in a state snapshot ([dict[str, Any]]): the two keys the
    handler reads hold a [FanMode] and an [int]. *)
Inductive Value :=
| VNone
| VFanMode (m : FanMode)
| VInt (n : Z).

(** [v is None] *)
Definition is_None (v : Value) : bool :=
  match v with VNone => true | _ => false end.

(** [data.get(key)]: [None] for a missing key. *)
Definition dict_get (data : gmap string Value) (key : string) : Value :=
  default VNone (data !! key).

(** The attributes the entity keeps. *)
Record Entity := {
  _attr_available : bool;
  _attr_preset_mode : option string;
  _attr_percentage : option Z }.

(** Modelled from the spec: the properties [available], [preset_mode] and
    [percentage] are inherited from the platform's entity classes, which
    are not part of this module; they read back the [_attr_] fields of the
    same name. *)
Definition available (self : Entity) : bool := _attr_available self.
Definition preset_mode (self : Entity) : option string := _attr_preset_mode self.
Definition percentage (self : Entity) : option Z := _attr_percentage self.

Definition set_available (b : bool) (self : Entity) : Entity :=
  {| _attr_available := b;
     _attr_preset_mode := _attr_preset_mode self;
     _attr_percentage := _attr_percentage self |}.

Definition set_preset_mode (p : option string) (self : Entity) : Entity :=
  {| _attr_available := _attr_available self;
     _attr_preset_mode := p;
     _attr_percentage := _attr_percentage self |}.

Definition set_percentage (p : option Z) (self : Entity) : Entity :=
  {| _attr_available := _attr_available self;
     _attr_preset_mode := _attr_preset_mode self;
     _attr_percentage := p |}.

(** [_fan_mode_to_name(fan_mode) if fan_mode != FanMode.OFF else None] on
    a value that is not [None].  A value that is no enum member differs
    from [FanMode.OFF] and has no [.name]. *)
Definition preset_of_value (fan_mode : Value) : Outcome (option string) :=
  match fan_mode with
  | VFanMode m =>
      if bool_decide (m ≠ OFF) then Return (Some (_fan_mode_to_name m))
      else Return None
  | _ => Raise AttributeError
  end.

(** [_fan_speed_to_percentage(fan_speed)] on a value that is not [None]. *)
Definition percentage_of_value (fan_speed : Value) : Outcome Z :=
  match fan_speed with
  | VInt n => Return (_fan_speed_to_percentage n)
  | _ => Raise TypeError
  end.

(** [_update_state(self, data)]: a synchronous callback; the result is the
    entity afterwards, with the exception if one was raised on the way. *)
Definition _update_state (data : gmap string Value) (self : Entity)
  : Outcome unit * Entity :=
  let fan_mode := dict_get data "fan_mode" in
  let self := set_available (negb (is_None fan_mode)) self in
  if available self then
    match preset_of_value fan_mode with
    | Raise e => (Raise e, self)
    | Return p =>
        let self := set_preset_mode p self in
        let fan_speed := dict_get data "fan_speed" in
        if negb (is_None fan_speed) then
          match percentage_of_value fan_speed with
          | Raise e => (Raise e, self)
          | Return pc => (Return (), set_percentage (Some pc) self)
          end
        else (Return (), self)
    end
  else (Return (), self).

(** ** Vendor calls and the collaborators *)

(** A vendor call handed to the request channel: the bound method of
    [self._device.api] and its argument. *)
Inductive VendorCall :=
| set_fan_mode (fan_mode : FanMode)
| set_fan_speed (fan_speed : Z).

(** The device object and the coordinator live outside the module and are
    taken as parameters.  Each [await] gives control to them, so both may
    change their own state [Env] and, through state pushes that arrive in
    the meantime, the entity's attributes.
    - [device_async_request] is [self._device.async_request(function,
      *args)]: it returns the state snapshot the call answered with, or
      raises;
    - [coordinator_async_set_updated_data] is
      [self._coordinator.async_set_updated_data(data)]. *)
Class Collaborators := {
  Env : Type;
  device_async_request :
    VendorCall → Entity * Env → Outcome (gmap string Value) * (Entity * Env);
  coordinator_async_set_updated_data :
    gmap string Value → Entity * Env → Outcome unit * (Entity * Env) }.

Context `{Collaborators}.

(** The entity, its collaborators, and the trace of the vendor calls
    issued so far (oldest first). *)
Record World := {
  entity : Entity;
  env : Env;
  calls : list VendorCall }.

(** A coroutine of the entity: runs on a world, ends with a value or an
    exception. *)
Definition Action (A : Type) : Type := World → Outcome A * World.

#[export] Instance Action_ret : MRet Action := λ A a w, (Return a, w).

#[export] Instance Action_bind : MBind Action := λ A B f m w,
  match m w with
  | (Return a, w') => f a w'
  | (Raise e, w') => (Raise e, w')
  end.

(** An expression that may raise, evaluated without touching the world. *)
Definition eval {A} (r : Outcome A) : Action A := λ w, (r, w).

(** Reading [self]. *)
Definition self_ : Action Entity := λ w, (Return (entity w), w).

(** [await self._device.async_request(call)]: the call joins the trace. *)
Definition await_device_request (call : VendorCall) : Action (gmap string Value) :=
  λ w,
    let '(r, (e, v)) := device_async_request call (entity w, env w) in
    (r, {| entity := e; env := v; calls := calls w ++ [call] |}).

(** [self._coordinator.async_set_updated_data(data)] *)
Definition set_updated_data (data : gmap string Value) : Action unit :=
  λ w,
    let '(r, (e, v)) := coordinator_async_set_updated_data data (entity w, env w) in
    (r, {| entity := e; env := v; calls := calls w |}).

(** A method decorated [@callback]: synchronous, it runs on the entity
    and never suspends. *)
Definition callback (f : Entity → Outcome unit * Entity) : Action unit :=
  λ w,
    let '(r, e) := f (entity w) in
    (r, {| entity := e; env := env w; calls := calls w |}).

(** ** Entity actions *)

Definition _async_turn_on_if_needed (force : bool) : Action bool :=
  self ← self_;
  if force || bool_decide (preset_mode self = None) then
    _ ← await_device_request (set_fan_mode AUTO);
    mret true
  else mret false.

Definition _async_request (call : VendorCall) : Action unit :=
  data ← await_device_request call;
  set_updated_data data.

Definition async_set_percentage (percentage_ : Z) : Action unit :=
  _ ← _async_turn_on_if_needed false;
  let fan_speed := _fan_percentage_to_speed percentage_ in
  _async_request (set_fan_speed fan_speed).

Definition async_set_preset_mode (preset_mode_ : string) : Action unit :=
  fan_mode ← eval (_fan_name_to_mode preset_mode_);
  if bool_decide (fan_mode = MANUAL) then
    self ← self_;
    let p := percentage self in
    async_set_percentage (match p with Some p => p | None => 50 end)
  else
    wasSetToAuto ← _async_turn_on_if_needed false;
    if negb (wasSetToAuto && bool_decide (fan_mode = AUTO)) then
      _async_request (set_fan_mode fan_mode)
    else mret ().

(** The extra keyword arguments are ignored by the method and left out. *)
Definition async_turn_on (percentage_ : option Z) (preset_mode_ : option string)
  : Action unit :=
  match percentage_, preset_mode_ with
  | Some p, _ => async_set_percentage p
  | None, Some m => async_set_preset_mode m
  | None, None => _ ← _async_turn_on_if_needed true; mret ()
  end.

Definition async_turn_off : Action unit :=
  _async_request (set_fan_mode OFF).

(** Modelled from the spec: the coordinator, which is not part of this
    module, pushes the snapshot it is given back to the entity, whose
    handler re-derives the attributes; the coordinator's own state is not
    looked into. *)
Definition coordinator_feeds_entity : Prop :=
  ∀ (data : gmap string Value) (e : Entity) (v : Env),
    coordinator_async_set_updated_data data (e, v) =
      ((_update_state data e).1, ((_update_state data e).2, v)).

(** The vendor calls an action issues from a world: the trace afterwards is
    the trace before, followed by them. *)
Definition issues {A} (act : Action A) (w : World) (l : list VendorCall) : Prop :=
  calls (act w).2 = calls w ++ l.

End Adapter.

Arguments Value FanMode : clear implicits.
Arguments Collaborators FanMode : clear implicits.

(** ** A test bench *)

(** A sample vendor enum and a simulated purifier, used to run the model
    on concrete inputs. *)
Module Bench.

Inductive mode := Off | Auto | Night | Manual | Unknown.

#[export] Instance mode_eq_dec : EqDecision mode.
Proof. solve_decision. Defined.

Definition mode_name (m : mode) : string :=
  match m with
  | Off => "OFF"
  | Auto => "AUTO"
  | Night => "NIGHT"
  | Manual => "MANUAL"
  | Unknown => "UNKNOWN"
  end.

#[export] Instance mode_enum : FanModeEnum mode := {|
  FanMode_members := [Off; Auto; Night; Manual; Unknown];
  FanMode_name := mode_name;
  OFF := Off;
  AUTO := Auto;
  MANUAL := Manual;
  UNKNOWN := Unknown |}.

(** The simulated purifier: it answers every call with its new state and,
    like the real one, rejects a speed while it is off. *)
Record purifier := {
  fan_mode : mode;
  fan_speed : Z }.

Definition snapshot (d : purifier) : gmap string (Value mode) :=
  {[ "fan_mode" := VFanMode (fan_mode d); "fan_speed" := VInt (fan_speed d) ]}.

Definition request (call : VendorCall) (st : Entity * purifier)
  : Outcome (gmap string (Value mode)) * (Entity * purifier) :=
  let '(e, d) := st in
  match call with
  | set_fan_mode m =>
      let d' := {| fan_mode := m; fan_speed := fan_speed d |} in
      (Return (snapshot d'), (e, d'))
  | set_fan_speed s =>
      if bool_decide (fan_mode d = Off) then (Raise (RequestError (-5)), (e, d))
      else
        let d' := {| fan_mode := Manual; fan_speed := s |} in
        (Return (snapshot d'), (e, d'))
  end.

(** The coordinator hands the snapshot to the entity's handler. *)
Definition push (data : gmap string (Value mode)) (st : Entity * purifier)
  : Outcome unit * (Entity * purifier) :=
  let '(e, d) := st in
  let '(r, e') := _update_state data e in
  (r, (e', d)).

#[export] Instance collaborators : Collaborators mode := {|
  Env := purifier;
  device_async_request := request;
  coordinator_async_set_updated_data := push |}.

Definition fresh_entity : Entity :=
  {| _attr_available := true; _attr_preset_mode := None; _attr_percentage := None |}.

Definition off_world : World :=
  {| entity := fresh_entity;
     env := {| fan_mode := Off; fan_speed := 0 |};
     calls := [] |}.

Definition auto_world : World :=
  {| entity := {| _attr_available := true;
                  _attr_preset_mode := Some "auto";
                  _attr_percentage := Some 40 |};
     env := {| fan_mode := Auto; fan_speed := 48 |};
     calls := [] |}.

(** A purifier that cannot be reached: every request fails. *)
Definition unreachable : Collaborators mode := {|
  Env := unit;
  device_async_request := λ _ st, (Raise (RequestError (-4000)), st);
  coordinator_async_set_updated_data := λ data st,
    ((_update_state data st.1).1, ((_update_state data st.1).2, st.2)) |}.

Definition unreachable_world : @World mode unreachable :=
  @Build_World mode unreachable fresh_entity () [].

(** State snapshots as the coordinator pushes them. *)
Definition off_snapshot : gmap string (Value mode) :=
  {[ "fan_mode" := VFanMode Off; "fan_speed" := VInt 3 ]}.

Definition speed_only_snapshot : gmap string (Value mode) :=
  {[ "fan_speed" := VInt 3 ]}.

Definition mode_only_snapshot : gmap string (Value mode) :=
  {[ "fan_mode" := VFanMode Night ]}.

Definition none_mode_snapshot : gmap string (Value mode) :=
  {[ "fan_mode" := VNone; "fan_speed" := VInt 3 ]}.

Definition none_speed_snapshot : gmap string (Value mode) :=
  {[ "fan_mode" := VFanMode Auto; "fan_speed" := VNone ]}.

Definition unknown_snapshot : gmap string (Value mode) :=
  {[ "fan_mode" := VFanMode Unknown ]}.

End Bench.


(** * Properties *)

(** ** Rounding *)

Example speed_of_50 : _fan_percentage_to_speed 50 = 60.
Proof. reflexivity. Qed.
Example speed_of_100 : _fan_percentage_to_speed 100 = 121.
Proof. reflexivity. Qed.
Example percentage_of_3 : _fan_speed_to_percentage 3 = 2.
Proof. reflexivity. Qed.

Lemma py_round_div_error (n d : Z) :
  0 < d → 2 * Z.abs (n - d * py_round_div n d) ≤ d.
Proof.
  intros Hd. unfold py_round_div.
  pose proof (Z.div_mod n d ltac:(lia)) as Hdm.
  pose proof (Z.mod_pos_bound n d Hd) as Hr.
  destruct (Z.ltb_spec (2 * (n mod d)) d); [lia|].
  destruct (Z.ltb_spec d (2 * (n mod d))); [lia|].
  destruct (Z.even (n / d)); lia.
Qed.

Lemma py_round_div_nearest (n d k : Z) :
  0 < d → 2 * Z.abs (n - d * k) < d → py_round_div n d = k.
Proof.
  intros Hd Hk.
  pose proof (Z.div_mod n d ltac:(lia)) as Hdm.
  pose proof (Z.mod_pos_bound n d Hd) as Hr.
  assert (Hq : n / d = k ∨ n / d = k - 1) by nia.
  unfold py_round_div.
  destruct (Z.ltb_spec (2 * (n mod d)) d);
    [|destruct (Z.ltb_spec d (2 * (n mod d)))]; [nia|nia|nia].
Qed.

Lemma py_round_div_mono (n m d : Z) :
  0 < d → n ≤ m → py_round_div n d ≤ py_round_div m d.
Proof.
  intros Hd Hnm.
  pose proof (py_round_div_error n d Hd) as Hn.
  pose proof (py_round_div_error m d Hd) as Hm.
  destruct (Z.le_gt_cases (py_round_div n d) (py_round_div m d)) as [|Hgt]; [done|].
  exfalso.
  (* the two results differ by at least one, so both errors are exactly a
     half, [n = m], and the tie went two ways *)
  assert (n = m) by nia. subst m. lia.
Qed.

(** The conversions never sit near a tie they do not hit: this is the
    margin that makes the float computation agree with [py_round_div]. *)
Lemma round_margin (x : Z) :
  (2 * ((MAX_FAN_SPEED * x) mod 100) = 100
   ∨ 2 ≤ Z.abs (2 * ((MAX_FAN_SPEED * x) mod 100) - 100))
  ∧ 1 ≤ Z.abs (2 * ((100 * x) mod MAX_FAN_SPEED) - MAX_FAN_SPEED).
Proof. unfold MAX_FAN_SPEED. split; lia. Qed.

Lemma percentage_round_trip (p : Z) :
  _fan_speed_to_percentage (_fan_percentage_to_speed p) = p.
Proof.
  unfold _fan_speed_to_percentage, _fan_percentage_to_speed, MAX_FAN_SPEED.
  pose proof (py_round_div_error (121 * p) 100 ltac:(lia)).
  apply py_round_div_nearest; lia.
Qed.

Lemma speed_round_trip_fails_at_3 :
  _fan_percentage_to_speed (_fan_speed_to_percentage 3) = 2.
Proof. reflexivity. Qed.

(** C1, as stated, does not hold: the claim asks for a percentage in
    [0,100] that does not survive percentage -> speed -> percentage, and
    there is none (only the speed -> percentage -> speed direction loses
    information). *)
Lemma C1_lossy_both_directions_fails :
  ¬ ((∃ p, 0 ≤ p ≤ 100
        ∧ _fan_speed_to_percentage (_fan_percentage_to_speed p) ≠ p)
     ∧ (∃ s, 0 ≤ s ≤ 121
        ∧ _fan_percentage_to_speed (_fan_speed_to_percentage s) ≠ s)).
Proof.
  intros [(p & _ & Hp) _]. apply Hp, percentage_round_trip.
Qed.

(** C1 (amended): the conversions are lossy in one direction only.  Every
    percentage [p] in [0,100] survives the round trip through the vendor
    speed, [_fan_speed_to_percentage(_fan_percentage_to_speed(p)) = p],
    while there is a vendor speed [s] in [0,121] with
    [_fan_percentage_to_speed(_fan_speed_to_percentage(s)) != s]. *)
Theorem C1_lossy_one_direction :
  (∀ p, 0 ≤ p ≤ 100 →
     _fan_speed_to_percentage (_fan_percentage_to_speed p) = p)
  ∧ (∃ s, 0 ≤ s ≤ 121
       ∧ _fan_percentage_to_speed (_fan_speed_to_percentage s) ≠ s).
Proof.
  split.
  - intros p _. apply percentage_round_trip.
  - exists 3. split; [lia|]. rewrite speed_round_trip_fails_at_3. lia.
Qed.

Lemma C1_lossy_one_direction_witness :
  0 ≤ 50 ≤ 100 ∧ _fan_speed_to_percentage (_fan_percentage_to_speed 50) = 50.
Proof.
  split; [lia|]. apply (proj1 C1_lossy_one_direction 50). lia.
Defined.

(** C8: for every integer percentage [p] in [0,100],
    [_fan_percentage_to_speed(p) = round(121*p/100)] lies in [0,121]; for
    every integer vendor speed [s] in [0,121],
    [_fan_speed_to_percentage(s) = round(100*s/121)] lies in [0,100]. *)
Theorem C8_conversion_ranges :
  (∀ p, 0 ≤ p ≤ 100 →
     _fan_percentage_to_speed p = py_round_div (121 * p) 100
     ∧ 0 ≤ _fan_percentage_to_speed p ≤ 121)
  ∧ (∀ s, 0 ≤ s ≤ 121 →
     _fan_speed_to_percentage s = py_round_div (100 * s) 121
     ∧ 0 ≤ _fan_speed_to_percentage s ≤ 100).
Proof.
  split.
  - intros p [Hlo Hhi]. split; [reflexivity|].
    unfold _fan_percentage_to_speed, MAX_FAN_SPEED.
    pose proof (py_round_div_mono 0 (121 * p) 100 ltac:(lia) ltac:(lia)) as H0.
    pose proof (py_round_div_mono (121 * p) 12100 100 ltac:(lia) ltac:(lia)) as H1.
    change (py_round_div 0 100) with 0 in H0.
    change (py_round_div 12100 100) with 121 in H1. lia.
  - intros s [Hlo Hhi]. split; [reflexivity|].
    unfold _fan_speed_to_percentage, MAX_FAN_SPEED.
    pose proof (py_round_div_mono 0 (100 * s) 121 ltac:(lia) ltac:(lia)) as H0.
    pose proof (py_round_div_mono (100 * s) 12100 121 ltac:(lia) ltac:(lia)) as H1.
    change (py_round_div 0 121) with 0 in H0.
    change (py_round_div 12100 121) with 100 in H1. lia.
Qed.

Lemma C8_conversion_ranges_witness :
  0 ≤ _fan_percentage_to_speed 50 ≤ 121 ∧ 0 ≤ _fan_speed_to_percentage 60 ≤ 100.
Proof.
  split.
  - apply (proj1 C8_conversion_ranges 50). lia.
  - apply (proj2 C8_conversion_ranges 60). lia.
Defined.

(** ** Case conversion *)

Lemma char_upper_lower (c : ascii) :
  upper_ident_char c = true → char_upper (char_lower c) = c.
Proof.
  destruct c as [b0 b1 b2 b3 b4 b5 b6 b7].
  destruct b0, b1, b2, b3, b4, b5, b6, b7; vm_compute;
    first [reflexivity | discriminate].
Qed.

Lemma upper_lower (s : string) :
  uppercase_identifier s = true → upper (lower s) = s.
Proof.
  unfold uppercase_identifier, upper, lower.
  induction s as [|c s IH]; simpl; [done|].
  intros [Hc Hs]%andb_prop. by rewrite char_upper_lower, IH.
Qed.

Lemma lower_inj_on_identifiers (s t : string) :
  uppercase_identifier s = true → uppercase_identifier t = true →
  lower s = lower t → s = t.
Proof.
  intros Hs Ht Heq. by rewrite <- (upper_lower s), <- (upper_lower t), Heq.
Qed.

(** ** Enum lookup *)

Section EnumLookup.
Context `{FanModeEnum FanMode}.

Lemma find_name_of_member (l : list FanMode) (m : FanMode) :
  NoDup (FanMode_name <$> l) → m ∈ l →
  List.find (λ x, bool_decide (FanMode_name x = FanMode_name m)) l = Some m.
Proof.
  induction l as [|x l IH]; simpl; intros Hnd Hin.
  - by apply elem_of_nil in Hin.
  - apply NoDup_cons in Hnd as [Hx Hnd].
    apply elem_of_cons in Hin as [->|Hin].
    + by rewrite bool_decide_eq_true_2.
    + case_bool_decide as Hname; [|by apply IH].
      exfalso. apply Hx. rewrite Hname. by apply list_elem_of_fmap_2.
Qed.

Lemma find_name_of_stranger (l : list FanMode) (key : string) :
  (∀ m, m ∈ l → FanMode_name m ≠ key) →
  List.find (λ x, bool_decide (FanMode_name x = key)) l = None.
Proof.
  induction l as [|x l IH]; simpl; intros Hall; [done|].
  rewrite bool_decide_eq_false_2 by (apply Hall; left).
  apply IH. intros m Hm. apply Hall. by right.
Qed.

Lemma FanMode_getitem_name (m : FanMode) :
  NoDup (FanMode_name <$> FanMode_members) → m ∈ FanMode_members →
  FanMode_getitem (FanMode_name m) = Return m.
Proof.
  intros Hnd Hin. unfold FanMode_getitem. by rewrite find_name_of_member.
Qed.

Lemma FanMode_getitem_unknown (key : string) :
  (∀ m, m ∈ FanMode_members → FanMode_name m ≠ key) →
  FanMode_getitem key = Raise (KeyError key).
Proof.
  intros Hall. unfold FanMode_getitem. by rewrite find_name_of_stranger.
Qed.

Lemma FanMode_getitem_member (key : string) (m : FanMode) :
  FanMode_getitem key = Return m → m ∈ FanMode_members ∧ FanMode_name m = key.
Proof.
  unfold FanMode_getitem.
  destruct (List.find _ _) as [x|] eqn:Hfind; [|done].
  intros [= ->]. apply List.find_some in Hfind as [Hin Hname].
  split; [by apply list_elem_of_In|]. by apply bool_decide_eq_true in Hname.
Qed.

Context (wf : FanModeEnum_wf FanMode).

Lemma name_auto : _fan_name_to_mode "auto" = Return AUTO.
Proof.
  unfold _fan_name_to_mode. change (upper "auto") with "AUTO".
  rewrite <- (AUTO_name wf).
  apply FanMode_getitem_name; [apply (names_unique wf)|apply (AUTO_member wf)].
Qed.

Lemma name_manual : _fan_name_to_mode "manual" = Return MANUAL.
Proof.
  unfold _fan_name_to_mode. change (upper "manual") with "MANUAL".
  rewrite <- (MANUAL_name wf).
  apply FanMode_getitem_name; [apply (names_unique wf)|apply (MANUAL_member wf)].
Qed.

Lemma AUTO_neq_MANUAL : AUTO ≠ MANUAL.
Proof.
  intros Heq. pose proof (AUTO_name wf) as Ha. rewrite Heq, (MANUAL_name wf) in Ha.
  discriminate.
Qed.

End EnumLookup.

(** ** The state-update handler *)

Section StateUpdate.
Context `{FanModeEnum FanMode}.

Lemma dict_get_absent (data : gmap string (Value FanMode)) (key : string) :
  data !! key = None → dict_get data key = VNone.
Proof. intros Hk. unfold dict_get. by rewrite Hk. Qed.

Lemma dict_get_present (data : gmap string (Value FanMode)) (key : string) (v : Value FanMode) :
  data !! key = Some v → dict_get data key = v.
Proof. intros Hk. unfold dict_get. by rewrite Hk. Qed.

Lemma update_state_unavailable (data : gmap string (Value FanMode)) (self : Entity) :
  dict_get data "fan_mode" = VNone →
  _update_state data self = (Return (), set_available false self).
Proof. intros Hm. unfold _update_state. by rewrite Hm. Qed.

Lemma update_state_mode (data : gmap string (Value FanMode)) (self : Entity) (m : FanMode) :
  dict_get data "fan_mode" = VFanMode m →
  let p := if bool_decide (m = OFF) then None else Some (_fan_mode_to_name m) in
  let self' := set_preset_mode p (set_available true self) in
  _update_state data self =
    match dict_get data "fan_speed" with
    | VNone => (Return (), self')
    | VInt n => (Return (), set_percentage (Some (_fan_speed_to_percentage n)) self')
    | VFanMode _ => (Raise TypeError, self')
    end.
Proof.
  intros Hm. unfold _update_state. rewrite Hm. simpl.
  case_bool_decide as Hoff.
  - rewrite bool_decide_eq_false_2 by tauto. by destruct (dict_get data "fan_speed").
  - rewrite bool_decide_eq_true_2 by done. by destruct (dict_get data "fan_speed").
Qed.

Lemma update_state_keeps_percentage (data : gmap string (Value FanMode)) (self : Entity) :
  dict_get data "fan_speed" = VNone →
  percentage (_update_state data self).2 = percentage self.
Proof.
  intros Hs. unfold _update_state. rewrite Hs.
  destruct (dict_get data "fan_mode") as [|m|n]; simpl; try done.
  by case_bool_decide.
Qed.

(** C5: for every input mapping without a [fan_mode] key, [_update_state]
    sets [available] to [False] and leaves [preset_mode] and [percentage]
    as they were; and for every mapping whatsoever the handler, run on
    the entity as the callback it is, issues no vendor call and leaves the
    collaborators alone. *)
Theorem C5_update_state_without_fan_mode :
  (∀ (data : gmap string (Value FanMode)) (self : Entity),
     data !! "fan_mode" = None →
     (_update_state data self).1 = Return ()
     ∧ available (_update_state data self).2 = false
     ∧ preset_mode (_update_state data self).2 = preset_mode self
     ∧ percentage (_update_state data self).2 = percentage self)
  ∧ (∀ (C : Collaborators FanMode) (data : gmap string (Value FanMode)) (w : World),
       issues (callback (_update_state data)) w []
       ∧ calls (callback (_update_state data) w).2 = calls w
       ∧ env (callback (_update_state data) w).2 = env w).
Proof.
  split.
  - intros data self Hk.
    by rewrite update_state_unavailable by by apply dict_get_absent.
  - intros C data w. unfold issues, callback.
    destruct (_update_state data (entity w)) as [r e]. simpl.
    by rewrite app_nil_r.
Qed.

(** C6: for every input mapping whose [fan_mode] is [FanMode.OFF],
    [_update_state] sets [available] to [True] and [preset_mode] to
    [None]; for any other present [fan_mode] it sets [preset_mode] to the
    lowercase name of that mode. *)
Theorem C6_update_state_preset (data : gmap string (Value FanMode)) (self : Entity) (m : FanMode) :
  data !! "fan_mode" = Some (VFanMode m) →
  available (_update_state data self).2 = true
  ∧ preset_mode (_update_state data self).2 =
      (if bool_decide (m = OFF) then None else Some (lower (FanMode_name m))).
Proof.
  intros Hk%dict_get_present.
  rewrite (update_state_mode _ _ _ Hk).
  by destruct (dict_get data "fan_speed").
Qed.

(** C9: when [fan_mode] is [FanMode.OFF] and the mapping also carries a
    [fan_speed], [_update_state] still sets [percentage] to
    [_fan_speed_to_percentage(fan_speed)] (the OFF case clears only
    [preset_mode]); when [fan_mode] is present and [fan_speed] is absent,
    [percentage] is left as it was. *)
Theorem C9_update_state_percentage :
  (∀ (data : gmap string (Value FanMode)) (self : Entity) (s : Z),
     data !! "fan_mode" = Some (VFanMode OFF) →
     data !! "fan_speed" = Some (VInt s) →
     _update_state data self =
       (Return (),
        {| _attr_available := true;
           _attr_preset_mode := None;
           _attr_percentage := Some (_fan_speed_to_percentage s) |}))
  ∧ (∀ (data : gmap string (Value FanMode)) (self : Entity) (v : Value FanMode),
       data !! "fan_mode" = Some v →
       data !! "fan_speed" = None →
       percentage (_update_state data self).2 = percentage self).
Proof.
  split.
  - intros data self s Hm%dict_get_present Hs%dict_get_present.
    rewrite (update_state_mode _ _ _ Hm), Hs.
    by rewrite bool_decide_eq_true_2.
  - intros data self v _ Hs%dict_get_absent.
    by apply update_state_keeps_percentage.
Qed.

End StateUpdate.

(** ** Preset names *)

Section PresetNames.
Context `{FanModeEnum FanMode}.

(** C10: for every [FanMode] member [m] whose name is an uppercase
    identifier, [_fan_name_to_mode(_fan_mode_to_name(m)) = m]; hence, when
    all member names are such, every string of [_attr_preset_modes]
    resolves to a member, which is the only member it is the name of (and
    is neither OFF nor UNKNOWN). *)
Theorem C10_name_round_trip :
  NoDup (FanMode_name <$> FanMode_members) →
  (∀ m, m ∈ FanMode_members → uppercase_identifier (FanMode_name m) = true →
     _fan_name_to_mode (_fan_mode_to_name m) = Return m)
  ∧ ((∀ m, m ∈ FanMode_members → uppercase_identifier (FanMode_name m) = true) →
     ∀ s, s ∈ _attr_preset_modes →
       ∃ m, _fan_name_to_mode s = Return m
            ∧ m ∈ FanMode_members ∧ m ≠ OFF ∧ m ≠ UNKNOWN
            ∧ ∀ m', m' ∈ FanMode_members → _fan_mode_to_name m' = s → m' = m).
Proof.
  intros Hnd.
  assert (Hrt : ∀ m, m ∈ FanMode_members →
                uppercase_identifier (FanMode_name m) = true →
                _fan_name_to_mode (_fan_mode_to_name m) = Return m).
  { intros m Hin Hup. unfold _fan_name_to_mode, _fan_mode_to_name.
    rewrite upper_lower by done. by apply FanMode_getitem_name. }
  split; [done|].
  intros Hall s Hs. unfold _attr_preset_modes in Hs.
  apply list_elem_of_fmap in Hs as (m & -> & Hm).
  apply list_elem_of_filter in Hm as [Hno Hin].
  exists m. split; [by apply Hrt; auto|].
  repeat split; [done|tauto|tauto|].
  intros m' Hin' Hname. unfold _fan_mode_to_name in Hname.
  apply lower_inj_on_identifiers in Hname; [|by apply Hall..].
  pose proof (FanMode_getitem_name m' Hnd Hin') as Hget.
  rewrite Hname, (FanMode_getitem_name m Hnd Hin) in Hget. congruence.
Qed.

End PresetNames.

(** ** Entity actions *)

Section Actions.
Context `{FanModeEnum FanMode} `{!Collaborators FanMode}.

Lemma bind_run {A B} (m : Action A) (f : A → Action B) (w : World) :
  (m ≫= f) w =
    match m w with
    | (Return a, w') => f a w'
    | (Raise e, w') => (Raise e, w')
    end.
Proof. reflexivity. Qed.

(** The request channel is called once per [await], whatever it answers. *)
Lemma await_device_request_calls (call : VendorCall) (w : World) :
  calls (await_device_request call w).2 = calls w ++ [call].
Proof.
  unfold await_device_request.
  by destruct (device_async_request call (entity w, env w)) as [r [e v]].
Qed.

Lemma set_updated_data_calls (data : gmap string (Value FanMode)) (w : World) :
  calls (set_updated_data data w).2 = calls w.
Proof.
  unfold set_updated_data.
  by destruct (coordinator_async_set_updated_data data (entity w, env w)) as [r [e v]].
Qed.

Lemma async_request_calls (call : VendorCall) (w : World) :
  calls (_async_request call w).2 = calls w ++ [call].
Proof.
  unfold _async_request. rewrite bind_run.
  pose proof (await_device_request_calls call w) as Hc.
  destruct (await_device_request call w) as [[data|e] w1]; simpl in *; [|done].
  by rewrite set_updated_data_calls.
Qed.

(** [_async_turn_on_if_needed]: the AUTO request is issued exactly when
    forced or when no preset mode is known, and [True] is reported only
    after it was issued. *)
Lemma turn_on_if_needed_calls (force : bool) (w : World) :
  calls (_async_turn_on_if_needed force w).2 =
    calls w ++
      (if force || bool_decide (preset_mode (entity w) = None)
       then [set_fan_mode AUTO] else []).
Proof.
  unfold _async_turn_on_if_needed, self_. rewrite bind_run. simpl.
  destruct (force || _).
  - rewrite bind_run.
    pose proof (await_device_request_calls (set_fan_mode AUTO) w) as Hc.
    by destruct (await_device_request _ w) as [[data|e] w1].
  - simpl. by rewrite app_nil_r.
Qed.

Lemma turn_on_if_needed_report (force : bool) (w w1 : World) (b : bool) :
  _async_turn_on_if_needed force w = (Return b, w1) →
  b = force || bool_decide (preset_mode (entity w) = None).
Proof.
  unfold _async_turn_on_if_needed, self_. rewrite bind_run. simpl.
  destruct (force || _).
  - rewrite bind_run.
    destruct (await_device_request _ w) as [[data|e] w'];
      unfold mret, Action_ret; congruence.
  - unfold mret, Action_ret. congruence.
Qed.

Lemma set_percentage_run (p : Z) (w : World) :
  async_set_percentage p w =
    match _async_turn_on_if_needed false w with
    | (Return _, w1) => _async_request (set_fan_speed (_fan_percentage_to_speed p)) w1
    | (Raise e, w1) => (Raise e, w1)
    end.
Proof. reflexivity. Qed.

Lemma set_percentage_calls (p : Z) (w : World) :
  ∃ l, calls (async_set_percentage p w).2 = calls w ++ l
       ∧ ∀ c, c ∈ l →
           c = set_fan_mode AUTO ∨ c = set_fan_speed (_fan_percentage_to_speed p).
Proof.
  rewrite set_percentage_run.
  pose proof (turn_on_if_needed_calls false w) as Hc.
  destruct (_async_turn_on_if_needed false w) as [[b|e] w1]; simpl in Hc.
  - rewrite async_request_calls, Hc, <- app_assoc.
    eexists; split; [done|].
    intros c [Hin|Hin]%elem_of_app.
    + left. destruct (bool_decide _); [|by apply elem_of_nil in Hin].
      by apply list_elem_of_singleton in Hin.
    + right. by apply list_elem_of_singleton in Hin.
  - eexists; split; [exact Hc|].
    intros c Hin. left. destruct (bool_decide _); [|by apply elem_of_nil in Hin].
    by apply list_elem_of_singleton in Hin.
Qed.

Lemma set_preset_mode_run (s : string) (m : FanMode) (w : World) :
  _fan_name_to_mode s = Return m →
  async_set_preset_mode s w =
    if bool_decide (m = MANUAL) then
      async_set_percentage
        (match percentage (entity w) with Some p => p | None => 50 end) w
    else
      match _async_turn_on_if_needed false w with
      | (Return wasSetToAuto, w1) =>
          if wasSetToAuto && bool_decide (m = AUTO) then (Return (), w1)
          else _async_request (set_fan_mode m) w1
      | (Raise e, w1) => (Raise e, w1)
      end.
Proof.
  intros Hm. unfold async_set_preset_mode, eval. rewrite bind_run, Hm.
  destruct (bool_decide (m = MANUAL)); [done|].
  rewrite bind_run.
  destruct (_async_turn_on_if_needed false w) as [[b|e] w1]; [|done].
  by destruct (b && _).
Qed.


(** C3: from every state, [async_turn_on()] without percentage and preset
    mode issues exactly one vendor call, [set_fan_mode(AUTO)]; and with a
    percentage the method is [async_set_percentage(percentage)] whatever
    the preset-mode argument. *)
Theorem C3_turn_on :
  (∀ w : World, issues (async_turn_on None None) w [set_fan_mode AUTO])
  ∧ (∀ (p : Z) (preset : option string) (w : World),
       async_turn_on (Some p) preset w = async_set_percentage p w).
Proof.
  split; [|done].
  intros w. unfold issues, async_turn_on. rewrite bind_run.
  pose proof (turn_on_if_needed_calls true w) as Hc. simpl in Hc.
  by destruct (_async_turn_on_if_needed true w) as [[b|e] w1].
Qed.

(** C4: [async_set_preset_mode("manual")] is
    [async_set_percentage] of the current percentage, or of 50 when the
    current percentage is [None]; it never issues
    [set_fan_mode(MANUAL)]. *)
Theorem C4_set_preset_mode_manual (wf : FanModeEnum_wf FanMode) (w : World) :
  async_set_preset_mode "manual" w =
    async_set_percentage
      (match percentage (entity w) with Some p => p | None => 50 end) w
  ∧ (percentage (entity w) = None →
     async_set_preset_mode "manual" w = async_set_percentage 50 w)
  ∧ ∃ l, issues (async_set_preset_mode "manual") w l ∧ set_fan_mode MANUAL ∉ l.
Proof.
  assert (Hrun : async_set_preset_mode "manual" w =
                 async_set_percentage
                   (match percentage (entity w) with Some p => p | None => 50 end) w).
  { rewrite (set_preset_mode_run _ _ _ (name_manual wf)).
    by rewrite bool_decide_eq_true_2. }
  split; [done|]. split.
  - intros Hnone. by rewrite Hrun, Hnone.
  - destruct (set_percentage_calls
                (match percentage (entity w) with Some p => p | None => 50 end) w)
      as (l & Hl & Honly).
    exists l. split; [unfold issues; by rewrite Hrun|].
    intros [Hauto|Hspeed]%Honly; [|done].
    injection Hauto as Heq. by apply (AUTO_neq_MANUAL wf).
Qed.


End Actions.

(** ** The properties on the test bench *)

Import Bench.

Lemma bench_mode_wf : FanModeEnum_wf mode.
Proof.
  split; try reflexivity.
  - simpl. repeat (apply NoDup_cons_2;
              [rewrite ?not_elem_of_cons; repeat split;
               first [discriminate | apply not_elem_of_nil]|]).
    apply NoDup_nil_2.
  - simpl. repeat constructor.
  - simpl. repeat constructor.
  - simpl. repeat constructor.
  - simpl. repeat constructor.
Defined.

Example bench_preset_modes :
  _attr_preset_modes (FanMode := mode) = ["auto"; "night"; "manual"].
Proof. reflexivity. Qed.

Example bench_manual_from_off :
  calls (async_set_preset_mode "manual" off_world).2
  = [set_fan_mode Auto; set_fan_speed 60].
Proof. vm_compute. reflexivity. Qed.

Example bench_night_from_off :
  calls (async_set_preset_mode "Night" off_world).2
  = [set_fan_mode Auto; set_fan_mode Night].
Proof. vm_compute. reflexivity. Qed.

Example bench_auto_from_auto :
  calls (async_set_preset_mode "auto" auto_world).2 = [set_fan_mode Auto].
Proof. vm_compute. reflexivity. Qed.

Example bench_percentage_from_auto :
  calls (async_turn_on (Some 50) (Some "night") auto_world).2 = [set_fan_speed 60]
  ∧ entity (async_turn_on (Some 50) (Some "night") auto_world).2
    = {| _attr_available := true;
         _attr_preset_mode := Some "manual";
         _attr_percentage := Some 50 |}.
Proof. vm_compute. split; reflexivity. Qed.

Example bench_turn_off :
  calls (async_turn_off auto_world).2 = [set_fan_mode Off]
  ∧ preset_mode (entity (async_turn_off auto_world).2) = None.
Proof. vm_compute. split; reflexivity. Qed.


Lemma C4_set_preset_mode_manual_witness :
  async_set_preset_mode "manual" off_world = async_set_percentage 50 off_world.
Proof.
  apply (proj1 (proj2 (C4_set_preset_mode_manual bench_mode_wf off_world))).
  reflexivity.
Defined.

Lemma C5_update_state_without_fan_mode_witness :
  (_update_state speed_only_snapshot (entity auto_world)).1 = Return ()
  ∧ available (_update_state speed_only_snapshot (entity auto_world)).2 = false
  ∧ preset_mode (_update_state speed_only_snapshot (entity auto_world)).2 = Some "auto"
  ∧ percentage (_update_state speed_only_snapshot (entity auto_world)).2 = Some 40.
Proof.
  apply (proj1 C5_update_state_without_fan_mode speed_only_snapshot (entity auto_world)).
  vm_compute. reflexivity.
Defined.

Lemma C6_update_state_preset_witness :
  available (_update_state off_snapshot (entity auto_world)).2 = true
  ∧ preset_mode (_update_state off_snapshot (entity auto_world)).2 = None.
Proof.
  refine (C6_update_state_preset off_snapshot (entity auto_world) Off _).
  vm_compute. reflexivity.
Defined.


Lemma C9_update_state_percentage_witness :
  _update_state off_snapshot fresh_entity =
    (Return (),
     {| _attr_available := true;
        _attr_preset_mode := None;
        _attr_percentage := Some 2 |})
  ∧ percentage (_update_state mode_only_snapshot (entity auto_world)).2 = Some 40.
Proof.
  split.
  - apply (proj1 C9_update_state_percentage off_snapshot fresh_entity 3);
      vm_compute; reflexivity.
  - apply (proj2 C9_update_state_percentage mode_only_snapshot (entity auto_world)
             (VFanMode Night)); vm_compute; reflexivity.
Defined.

Lemma C10_name_round_trip_witness :
  _fan_name_to_mode (_fan_mode_to_name Night) = Return Night.
Proof.
  apply (proj1 (C10_name_round_trip (names_unique bench_mode_wf)) Night).
  - simpl. repeat constructor.
  - reflexivity.
Defined.

(** * Further properties *)

(** ** The scale conversions *)

(** X1: on its range the percentage-to-speed conversion is strictly
    increasing (two percentages never share a vendor speed), and the
    speed-to-percentage conversion is monotone. *)
Theorem conversions_monotone :
  (∀ p q, 0 ≤ p → p < q → q ≤ 100 →
     _fan_percentage_to_speed p < _fan_percentage_to_speed q)
  ∧ (∀ s t, 0 ≤ s → s ≤ t → t ≤ 121 →
       _fan_speed_to_percentage s ≤ _fan_speed_to_percentage t).
Proof.
  split.
  - intros p q _ Hpq _.
    pose proof (py_round_div_mono (MAX_FAN_SPEED * p) (MAX_FAN_SPEED * q) 100
                  ltac:(lia) ltac:(unfold MAX_FAN_SPEED; lia)) as Hle.
    fold (_fan_percentage_to_speed p) (_fan_percentage_to_speed q) in Hle.
    destruct (Z.eq_dec (_fan_percentage_to_speed p) (_fan_percentage_to_speed q))
      as [Heq|]; [|lia].
    apply (f_equal _fan_speed_to_percentage) in Heq.
    rewrite !percentage_round_trip in Heq. lia.
  - intros s t _ Hst _. unfold _fan_speed_to_percentage, MAX_FAN_SPEED.
    apply py_round_div_mono; lia.
Qed.

Lemma conversions_monotone_witness :
  _fan_percentage_to_speed 49 < _fan_percentage_to_speed 50
  ∧ _fan_speed_to_percentage 2 ≤ _fan_speed_to_percentage 3.
Proof.
  split.
  - apply (proj1 conversions_monotone 49 50); lia.
  - apply (proj2 conversions_monotone 2 3); lia.
Defined.

(** X2: the ends of the two scales correspond and nothing else reaches
    them: a percentage in [0,100] gives speed 0 only when it is 0 and
    speed 121 only when it is 100; a speed in [0,121] gives percentage 0
    only when it is 0 and percentage 100 only when it is 121. *)
Theorem conversions_endpoints :
  (∀ p, 0 ≤ p ≤ 100 →
     (_fan_percentage_to_speed p = 0 ↔ p = 0)
     ∧ (_fan_percentage_to_speed p = 121 ↔ p = 100))
  ∧ (∀ s, 0 ≤ s ≤ 121 →
       (_fan_speed_to_percentage s = 0 ↔ s = 0)
       ∧ (_fan_speed_to_percentage s = 100 ↔ s = 121)).
Proof.
  split.
  - intros p _. split; (split; [|by intros ->]); intros Hs;
      apply (f_equal _fan_speed_to_percentage) in Hs;
      by rewrite percentage_round_trip in Hs.
  - intros s _.
    pose proof (py_round_div_error (100 * s) 121 ltac:(lia)) as Herr.
    change (py_round_div (100 * s) 121) with (_fan_speed_to_percentage s) in Herr.
    split; (split; [|by intros ->]); intros Hp; rewrite Hp in Herr; lia.
Qed.

Lemma conversions_endpoints_witness :
  (_fan_percentage_to_speed 1 = 0 ↔ 1 = 0)
  ∧ (_fan_speed_to_percentage 120 = 100 ↔ 120 = 121).
Proof.
  split.
  - apply (proj1 conversions_endpoints 1). lia.
  - apply (proj2 conversions_endpoints 120). lia.
Defined.

(** X3: what speed -> percentage -> speed loses is at most one unit: for
    every vendor speed [s] in [0,121],
    [|_fan_percentage_to_speed(_fan_speed_to_percentage(s)) - s| <= 1]. *)
Theorem speed_round_trip_error (s : Z) :
  0 ≤ s ≤ 121 →
  Z.abs (_fan_percentage_to_speed (_fan_speed_to_percentage s) - s) ≤ 1.
Proof.
  intros _. unfold _fan_percentage_to_speed, _fan_speed_to_percentage, MAX_FAN_SPEED.
  pose proof (py_round_div_error (100 * s) 121 ltac:(lia)).
  pose proof (py_round_div_error (121 * py_round_div (100 * s) 121) 100 ltac:(lia)).
  lia.
Qed.

Lemma speed_round_trip_error_witness :
  Z.abs (_fan_percentage_to_speed (_fan_speed_to_percentage 3) - 3) ≤ 1.
Proof. apply (speed_round_trip_error 3). lia. Defined.

(** ** Preset names, in any case *)

Lemma char_upper_of_lower (c : ascii) : char_upper (char_lower c) = char_upper c.
Proof.
  destruct c as [b0 b1 b2 b3 b4 b5 b6 b7].
  by destruct b0, b1, b2, b3, b4, b5, b6, b7.
Qed.

Lemma char_lower_of_upper (c : ascii) : char_lower (char_upper c) = char_lower c.
Proof.
  destruct c as [b0 b1 b2 b3 b4 b5 b6 b7].
  by destruct b0, b1, b2, b3, b4, b5, b6, b7.
Qed.

Lemma char_upper_idem (c : ascii) : char_upper (char_upper c) = char_upper c.
Proof.
  destruct c as [b0 b1 b2 b3 b4 b5 b6 b7].
  by destruct b0, b1, b2, b3, b4, b5, b6, b7.
Qed.

Lemma upper_of_lower (s : string) : upper (lower s) = upper s.
Proof.
  unfold upper, lower. induction s as [|c s IH]; simpl; [done|].
  by rewrite char_upper_of_lower, IH.
Qed.

Lemma lower_of_upper (s : string) : lower (upper s) = lower s.
Proof.
  unfold upper, lower. induction s as [|c s IH]; simpl; [done|].
  by rewrite char_lower_of_upper, IH.
Qed.

Lemma upper_idem (s : string) : upper (upper s) = upper s.
Proof.
  unfold upper. induction s as [|c s IH]; simpl; [done|].
  by rewrite char_upper_idem, IH.
Qed.

Section PresetLookup.
Context `{FanModeEnum FanMode}.

Lemma name_inj_on_members (m m' : FanMode) :
  NoDup (FanMode_name <$> FanMode_members) →
  m ∈ FanMode_members → m' ∈ FanMode_members →
  FanMode_name m = FanMode_name m' → m = m'.
Proof.
  intros Hnd Hm Hm' Hname.
  pose proof (FanMode_getitem_name m Hnd Hm) as Hget.
  rewrite Hname, (FanMode_getitem_name m' Hnd Hm') in Hget. congruence.
Qed.


(** X5: a name that resolves names the member it resolves to: if
    [_fan_name_to_mode(s)] returns [m], then [m] is a member of the enum,
    its name is [s.upper()] and [_fan_mode_to_name(m)] is [s.lower()]. *)
Theorem name_to_mode_to_name (s : string) (m : FanMode) :
  _fan_name_to_mode s = Return m →
  m ∈ FanMode_members
  ∧ FanMode_name m = upper s
  ∧ _fan_mode_to_name m = lower s.
Proof.
  intros [Hin Hname]%FanMode_getitem_member.
  repeat split; [done..|].
  unfold _fan_mode_to_name. by rewrite Hname, lower_of_upper.
Qed.

Context (wf : FanModeEnum_wf FanMode).
Context (names_upper :
  ∀ m, m ∈ FanMode_members → uppercase_identifier (FanMode_name m) = true).

Lemma preset_modes_elem (s : string) :
  s ∈ _attr_preset_modes ↔
  ∃ m, m ∈ FanMode_members ∧ m ≠ OFF ∧ m ≠ UNKNOWN ∧ s = _fan_mode_to_name m.
Proof.
  unfold _attr_preset_modes. rewrite list_elem_of_fmap. split.
  - intros (m & -> & [Hno Hin]%list_elem_of_filter).
    exists m. repeat split; [done|tauto|tauto].
  - intros (m & Hin & Hoff & Hunk & ->).
    exists m. split; [done|]. apply list_elem_of_filter. split; [tauto|done].
Qed.

Lemma mode_to_name_inj (m m' : FanMode) :
  m ∈ FanMode_members → m' ∈ FanMode_members →
  _fan_mode_to_name m = _fan_mode_to_name m' → m = m'.
Proof.
  intros Hm Hm' Hname. unfold _fan_mode_to_name in Hname.
  apply lower_inj_on_identifiers in Hname; [|by apply names_upper..].
  by apply (name_inj_on_members _ _ (names_unique wf)).
Qed.

Lemma name_of_OFF : _fan_mode_to_name OFF = "off".
Proof. unfold _fan_mode_to_name. by rewrite (OFF_name wf). Qed.

Lemma name_of_UNKNOWN : _fan_mode_to_name UNKNOWN = "unknown".
Proof. unfold _fan_mode_to_name. by rewrite (UNKNOWN_name wf). Qed.

Lemma name_of_AUTO : _fan_mode_to_name AUTO = "auto".
Proof. unfold _fan_mode_to_name. by rewrite (AUTO_name wf). Qed.

Lemma name_of_MANUAL : _fan_mode_to_name MANUAL = "manual".
Proof. unfold _fan_mode_to_name. by rewrite (MANUAL_name wf). Qed.

Lemma distinct_by_name (m m' : FanMode) :
  FanMode_name m ≠ FanMode_name m' → m ≠ m'.
Proof. congruence. Qed.

Lemma off_not_listed : "off" ∉ _attr_preset_modes.
Proof.
  intros (m & Hin & Hoff & _ & Hname)%preset_modes_elem.
  rewrite <- name_of_OFF in Hname.
  apply Hoff. symmetry. apply mode_to_name_inj; [apply (OFF_member wf)|done..].
Qed.

Lemma unknown_not_listed : "unknown" ∉ _attr_preset_modes.
Proof.
  intros (m & Hin & _ & Hunk & Hname)%preset_modes_elem.
  rewrite <- name_of_UNKNOWN in Hname.
  apply Hunk. symmetry. apply mode_to_name_inj; [apply (UNKNOWN_member wf)|done..].
Qed.

(** X6: the declared preset list offers "auto" and "manual", never "off"
    or "unknown", and no name twice (member names being uppercase
    identifiers). *)
Theorem preset_modes_contents :
  "auto" ∈ _attr_preset_modes
  ∧ "manual" ∈ _attr_preset_modes
  ∧ ("off" ∉ _attr_preset_modes)
  ∧ ("unknown" ∉ _attr_preset_modes)
  ∧ NoDup _attr_preset_modes.
Proof.
  repeat split.
  - apply preset_modes_elem. exists AUTO.
    split; [apply (AUTO_member wf)|].
    repeat split; [| |by rewrite name_of_AUTO];
      apply distinct_by_name;
      rewrite (AUTO_name wf), ?(OFF_name wf), ?(UNKNOWN_name wf); discriminate.
  - apply preset_modes_elem. exists MANUAL.
    split; [apply (MANUAL_member wf)|].
    repeat split; [| |by rewrite name_of_MANUAL];
      apply distinct_by_name;
      rewrite (MANUAL_name wf), ?(OFF_name wf), ?(UNKNOWN_name wf); discriminate.
  - apply off_not_listed.
  - apply unknown_not_listed.
  - unfold _attr_preset_modes.
    apply NoDup_fmap_2_strong.
    + intros m m' [_ Hm]%list_elem_of_filter [_ Hm']%list_elem_of_filter.
      by apply mode_to_name_inj.
    + apply NoDup_filter. apply (NoDup_fmap_1 FanMode_name), (names_unique wf).
Qed.

End PresetLookup.

(** ** More on the state-update handler *)

Section StateUpdateMore.
Context `{FanModeEnum FanMode}.

(** X7: a key that is present with the value [None] counts as missing:
    [fan_mode: None] makes the entity unavailable and changes nothing
    else, and [fan_speed: None] beside a [FanMode] member leaves
    [percentage] as it was without raising. *)
Theorem update_state_explicit_None :
  (∀ (data : gmap string (Value FanMode)) (self : Entity),
     data !! "fan_mode" = Some VNone →
     _update_state data self = (Return (), set_available false self))
  ∧ (∀ (data : gmap string (Value FanMode)) (self : Entity) (m : FanMode),
       data !! "fan_mode" = Some (VFanMode m) →
       data !! "fan_speed" = Some VNone →
       (_update_state data self).1 = Return ()
       ∧ percentage (_update_state data self).2 = percentage self).
Proof.
  split.
  - intros data self Hm%dict_get_present. by apply update_state_unavailable.
  - intros data self m Hm%dict_get_present Hs%dict_get_present.
    by rewrite (update_state_mode _ _ _ Hm), Hs.
Qed.

(** X8: the handler is idempotent: pushing the same snapshot a second
    time changes neither the attributes nor the outcome. *)
Theorem update_state_idempotent (data : gmap string (Value FanMode)) (self : Entity) :
  _update_state data (_update_state data self).2 = _update_state data self.
Proof.
  unfold _update_state.
  destruct (dict_get data "fan_mode") as [|m|n]; simpl; [done| |done].
  case_bool_decide; simpl;
    by destruct (dict_get data "fan_speed") as [|m'|n'].
Qed.

(** X9: a snapshot that carries both a [FanMode] member and an integer
    speed determines all three attributes, whatever they were before;
    and a speed in [0,121] shows as a percentage in [0,100]. *)
Theorem update_state_full_snapshot
    (data : gmap string (Value FanMode)) (self : Entity) (m : FanMode) (n : Z) :
  data !! "fan_mode" = Some (VFanMode m) →
  data !! "fan_speed" = Some (VInt n) →
  _update_state data self =
    (Return (),
     {| _attr_available := true;
        _attr_preset_mode :=
          if bool_decide (m = OFF) then None else Some (_fan_mode_to_name m);
        _attr_percentage := Some (_fan_speed_to_percentage n) |})
  ∧ (0 ≤ n ≤ 121 → 0 ≤ _fan_speed_to_percentage n ≤ 100).
Proof.
  intros Hm%dict_get_present Hs%dict_get_present. split.
  - by rewrite (update_state_mode _ _ _ Hm), Hs.
  - intros [Hlo Hhi]. unfold _fan_speed_to_percentage, MAX_FAN_SPEED.
    pose proof (py_round_div_mono 0 (100 * n) 121 ltac:(lia) ltac:(lia)) as H0.
    pose proof (py_round_div_mono (100 * n) 12100 121 ltac:(lia) ltac:(lia)) as H1.
    change (py_round_div 0 121) with 0 in H0.
    change (py_round_div 12100 121) with 100 in H1. lia.
Qed.

Context (wf : FanModeEnum_wf FanMode).
Context (names_upper :
  ∀ m, m ∈ FanMode_members → uppercase_identifier (FanMode_name m) = true).

(** X10: the preset mode the handler reports for a member other than OFF
    and UNKNOWN is one of the declared preset modes; for UNKNOWN it
    reports "unknown", which is not among them. *)
Theorem update_state_preset_listed
    (data : gmap string (Value FanMode)) (self : Entity) (m : FanMode) :
  data !! "fan_mode" = Some (VFanMode m) →
  m ∈ FanMode_members →
  (m ≠ OFF → m ≠ UNKNOWN →
   ∃ s, preset_mode (_update_state data self).2 = Some s ∧ s ∈ _attr_preset_modes)
  ∧ (m = UNKNOWN →
     preset_mode (_update_state data self).2 = Some "unknown"
     ∧ "unknown" ∉ _attr_preset_modes).
Proof.
  intros Hm%dict_get_present Hin.
  assert (Hp : preset_mode (_update_state data self).2 =
               if bool_decide (m = OFF) then None else Some (_fan_mode_to_name m)).
  { rewrite (update_state_mode _ _ _ Hm).
    by destruct (dict_get data "fan_speed"). }
  split.
  - intros Hoff Hunk. exists (_fan_mode_to_name m).
    rewrite Hp, bool_decide_eq_false_2 by done. split; [done|].
    apply (preset_modes_elem _). eauto 10.
  - intros ->. rewrite Hp, bool_decide_eq_false_2.
    + rewrite (name_of_UNKNOWN wf). split; [done|].
      apply (unknown_not_listed wf names_upper).
    + apply distinct_by_name. rewrite (UNKNOWN_name wf), (OFF_name wf). discriminate.
Qed.

End StateUpdateMore.

(** ** More on the entity actions *)

Lemma speed_in_range (p : Z) :
  0 ≤ p ≤ 100 → 0 ≤ _fan_percentage_to_speed p ≤ 121.
Proof.
  intros [Hlo Hhi]. unfold _fan_percentage_to_speed, MAX_FAN_SPEED.
  pose proof (py_round_div_mono 0 (121 * p) 100 ltac:(lia) ltac:(lia)) as H0.
  pose proof (py_round_div_mono (121 * p) 12100 100 ltac:(lia) ltac:(lia)) as H1.
  change (py_round_div 0 100) with 0 in H0.
  change (py_round_div 12100 100) with 121 in H1. lia.
Qed.

Section ActionsMore.
Context `{FanModeEnum FanMode} `{!Collaborators FanMode}.

Lemma issues_unique {A} (act : Action A) (w : World) (l l' : list VendorCall) :
  issues act w l → issues act w l' → l = l'.
Proof. unfold issues. intros -> Heq. by apply app_inv_head in Heq. Qed.

Lemma turn_on_if_needed_idle (w : World) :
  is_Some (preset_mode (entity w)) →
  _async_turn_on_if_needed false w = (Return false, w).
Proof.
  intros [x Hx]. unfold _async_turn_on_if_needed, self_. rewrite bind_run. simpl.
  by rewrite Hx.
Qed.

Lemma turn_on_if_needed_wakes (force : bool) (w : World) :
  force = true ∨ preset_mode (entity w) = None →
  _async_turn_on_if_needed force w =
    match await_device_request (set_fan_mode AUTO) w with
    | (Return _, w1) => (Return true, w1)
    | (Raise e, w1) => (Raise e, w1)
    end.
Proof.
  intros Hwake. unfold _async_turn_on_if_needed, self_. rewrite bind_run. simpl.
  replace (force || bool_decide (preset_mode (entity w) = None)) with true.
  - rewrite bind_run. by destruct (await_device_request _ w) as [[data|e] w1].
  - symmetry. destruct Hwake as [->|Hnone]; [done|].
    rewrite bool_decide_eq_true_2 by done. apply orb_true_r.
Qed.

(** X11: [async_turn_off] issues exactly one vendor call,
    [set_fan_mode(OFF)], from every state (it is never preceded by the
    AUTO request of the turn-on step), and an exception of that request
    is the outcome of the action. *)
Theorem turn_off_trace (w : World) :
  issues async_turn_off w [set_fan_mode OFF]
  ∧ ∀ e, (device_async_request (set_fan_mode OFF) (entity w, env w)).1 = Raise e →
         (async_turn_off w).1 = Raise e.
Proof.
  split; [apply async_request_calls|].
  intros e He. unfold async_turn_off, _async_request, await_device_request.
  rewrite bind_run.
  destruct (device_async_request _ _) as [r [e1 v1]]. simpl in He. by subst r.
Qed.

(** X12: the vendor calls of [async_set_percentage(p)].  When a preset
    mode is known it is the speed request alone.  When none is known the
    AUTO request comes first; the speed request follows if that one
    returned, and otherwise its exception ends the action.  For a
    percentage in [0,100] every speed sent is in [0,121]. *)
Theorem set_percentage_trace (p : Z) (w : World) :
  (is_Some (preset_mode (entity w)) →
   issues (async_set_percentage p) w [set_fan_speed (_fan_percentage_to_speed p)])
  ∧ (preset_mode (entity w) = None →
     match (await_device_request (set_fan_mode AUTO) w).1 with
     | Return _ =>
         issues (async_set_percentage p) w
           [set_fan_mode AUTO; set_fan_speed (_fan_percentage_to_speed p)]
     | Raise e =>
         issues (async_set_percentage p) w [set_fan_mode AUTO]
         ∧ (async_set_percentage p w).1 = Raise e
     end)
  ∧ (0 ≤ p ≤ 100 →
     ∀ l x, issues (async_set_percentage p) w l → set_fan_speed x ∈ l →
            0 ≤ x ≤ 121).
Proof.
  split; [|split].
  - intros Hon. unfold issues.
    rewrite set_percentage_run, (turn_on_if_needed_idle _ Hon).
    apply async_request_calls.
  - intros Hnone. unfold issues.
    rewrite set_percentage_run, (turn_on_if_needed_wakes false) by by right.
    pose proof (await_device_request_calls (set_fan_mode AUTO) w) as Hc.
    destruct (await_device_request _ w) as [[data|e] w1]; simpl in *.
    + by rewrite async_request_calls, Hc, <- app_assoc.
    + done.
  - intros Hp l x Hl Hx.
    destruct (set_percentage_calls p w) as (l0 & Hl0 & Honly).
    rewrite (issues_unique _ _ _ _ Hl Hl0) in Hx.
    apply Honly in Hx as [?|[= ->]]; [done|].
    by apply speed_in_range.
Qed.

(** X13: the vendor calls of [async_set_preset_mode] for a preset that
    resolves to a mode [m] other than MANUAL.  When a preset mode is
    known it is [set_fan_mode(m)] alone, also for [m = AUTO].  When none
    is known and [m] is not AUTO, the AUTO request comes first and
    [set_fan_mode(m)] follows if that one returned; otherwise its
    exception ends the action. *)
Theorem set_preset_mode_trace (s : string) (m : FanMode) (w : World) :
  _fan_name_to_mode s = Return m → m ≠ MANUAL →
  (is_Some (preset_mode (entity w)) →
   issues (async_set_preset_mode s) w [set_fan_mode m])
  ∧ (preset_mode (entity w) = None → m ≠ AUTO →
     match (await_device_request (set_fan_mode AUTO) w).1 with
     | Return _ =>
         issues (async_set_preset_mode s) w [set_fan_mode AUTO; set_fan_mode m]
     | Raise e =>
         issues (async_set_preset_mode s) w [set_fan_mode AUTO]
         ∧ (async_set_preset_mode s w).1 = Raise e
     end).
Proof.
  intros Hm Hman. split.
  - intros Hon. unfold issues.
    rewrite (set_preset_mode_run _ _ _ Hm), bool_decide_eq_false_2 by done.
    rewrite (turn_on_if_needed_idle _ Hon). simpl.
    apply async_request_calls.
  - intros Hnone Hauto. unfold issues.
    rewrite (set_preset_mode_run _ _ _ Hm), bool_decide_eq_false_2 by done.
    rewrite (turn_on_if_needed_wakes false) by by right.
    pose proof (await_device_request_calls (set_fan_mode AUTO) w) as Hc.
    destruct (await_device_request _ w) as [[data|e] w1]; simpl in *.
    + rewrite bool_decide_eq_false_2 by done.
      by rewrite async_request_calls, Hc, <- app_assoc.
    + done.
Qed.

Lemma await_unreachable (call : VendorCall) (w : World) :
  (∀ c st, ∃ e, (device_async_request c st).1 = Raise e) →
  ∃ e w1, await_device_request call w = (Raise e, w1)
          ∧ calls w1 = calls w ++ [call].
Proof.
  intros Hdead. unfold await_device_request.
  destruct (Hdead call (entity w, env w)) as [e He].
  destruct (device_async_request call (entity w, env w)) as [r [e1 v1]].
  simpl in He. subst r. eauto.
Qed.


(** X15: on the short path of [async_set_preset_mode("auto")] the answer
    of the device is not handed to the coordinator: if nothing else
    touched the entity while the request was awaited, its attributes are
    what they were, [preset_mode] still [None]. *)
Theorem set_preset_mode_auto_not_refreshed
    (wf : FanModeEnum_wf FanMode) (w : World) :
  preset_mode (entity w) = None →
  (device_async_request (set_fan_mode AUTO) (entity w, env w)).2.1 = entity w →
  entity (async_set_preset_mode "auto" w).2 = entity w.
Proof.
  intros Hnone Hquiet.
  rewrite (set_preset_mode_run _ _ _ (name_auto wf)).
  rewrite bool_decide_eq_false_2 by apply (AUTO_neq_MANUAL wf).
  rewrite (turn_on_if_needed_wakes false) by by right.
  unfold await_device_request.
  destruct (device_async_request _ _) as [[data|e] [e1 v1]]; simpl in *; [|done].
  by rewrite bool_decide_eq_true_2.
Qed.

Context (Hfeeds : coordinator_feeds_entity).

Lemma async_request_refreshes (call : VendorCall) (w : World)
    (data : gmap string (Value FanMode)) (e1 : Entity) (v1 : Env) :
  device_async_request call (entity w, env w) = (Return data, (e1, v1)) →
  _async_request call w =
    ((_update_state data e1).1,
     {| entity := (_update_state data e1).2;
        env := v1;
        calls := calls w ++ [call] |}).
Proof.
  intros Hdev. unfold _async_request, await_device_request, set_updated_data.
  rewrite bind_run, Hdev. simpl. by rewrite Hfeeds.
Qed.

(** X16: turning off and setting a speed compose as the device needs it.
    With a coordinator that feeds the entity, once the device has
    answered [async_turn_off] with [fan_mode = OFF] the entity has no
    preset mode, and a following [async_set_percentage] begins with the
    AUTO request. *)
Theorem turn_off_then_set_percentage (w : World)
    (data : gmap string (Value FanMode)) (e1 : Entity) (v1 : Env) (p : Z) :
  device_async_request (set_fan_mode OFF) (entity w, env w) = (Return data, (e1, v1)) →
  data !! "fan_mode" = Some (VFanMode OFF) →
  preset_mode (entity (async_turn_off w).2) = None
  ∧ ∃ l, issues (async_set_percentage p) (async_turn_off w).2
           (set_fan_mode AUTO :: l).
Proof.
  intros Hdev Hoff%dict_get_present.
  assert (Hnone : preset_mode (entity (async_turn_off w).2) = None).
  { unfold async_turn_off. rewrite (async_request_refreshes _ _ _ _ _ Hdev). simpl.
    rewrite (update_state_mode _ _ _ Hoff), bool_decide_eq_true_2 by done.
    by destruct (dict_get data "fan_speed"). }
  split; [done|].
  destruct (set_percentage_trace p (async_turn_off w).2) as (_ & Hwake & _).
  specialize (Hwake Hnone).
  destruct ((await_device_request _ _).1); [eauto|].
  destruct Hwake as [Hl _]. eauto.
Qed.

(** X17: a percentage that was set is the percentage shown.  With a
    coordinator that feeds the entity and a known preset mode, if the
    device answers the speed request for a percentage [p] in [0,100] with
    a snapshot that carries that speed, [async_set_percentage(p)] returns
    and the entity's percentage is [p]. *)
Theorem set_percentage_shown (w : World)
    (data : gmap string (Value FanMode)) (e1 : Entity) (v1 : Env)
    (p : Z) (m : FanMode) :
  0 ≤ p ≤ 100 →
  is_Some (preset_mode (entity w)) →
  device_async_request (set_fan_speed (_fan_percentage_to_speed p)) (entity w, env w)
    = (Return data, (e1, v1)) →
  data !! "fan_mode" = Some (VFanMode m) →
  data !! "fan_speed" = Some (VInt (_fan_percentage_to_speed p)) →
  (async_set_percentage p w).1 = Return ()
  ∧ percentage (entity (async_set_percentage p w).2) = Some p.
Proof.
  intros _ Hon Hdev Hm%dict_get_present Hs%dict_get_present.
  rewrite set_percentage_run, (turn_on_if_needed_idle _ Hon).
  rewrite (async_request_refreshes _ _ _ _ _ Hdev). simpl.
  rewrite (update_state_mode _ _ _ Hm), Hs. simpl.
  by rewrite percentage_round_trip.
Qed.

End ActionsMore.

(** ** The further properties on the test bench *)

Lemma bench_names_upper (m : mode) :
  m ∈ FanMode_members → uppercase_identifier (FanMode_name m) = true.
Proof. intros _. by destruct m. Defined.

Lemma bench_feeds : coordinator_feeds_entity.
Proof. intros data e v. simpl. by destruct (_update_state data e). Defined.

Lemma bench_unreachable (c : VendorCall) (st : Entity * ()) :
  ∃ e, (@device_async_request mode unreachable c st).1 = Raise e.
Proof. by eexists. Defined.


Lemma name_to_mode_to_name_witness :
  Night ∈ FanMode_members
  ∧ FanMode_name Night = "NIGHT"
  ∧ _fan_mode_to_name Night = "night".
Proof. apply (name_to_mode_to_name "Night" Night). reflexivity. Defined.

Lemma preset_modes_contents_witness :
  "auto" ∈ _attr_preset_modes (FanMode := mode)
  ∧ "manual" ∈ _attr_preset_modes (FanMode := mode)
  ∧ ("off" ∉ _attr_preset_modes (FanMode := mode))
  ∧ ("unknown" ∉ _attr_preset_modes (FanMode := mode))
  ∧ NoDup (_attr_preset_modes (FanMode := mode)).
Proof. exact (preset_modes_contents bench_mode_wf bench_names_upper). Defined.

Lemma update_state_explicit_None_witness :
  _update_state none_mode_snapshot (entity auto_world)
    = (Return (), set_available false (entity auto_world))
  ∧ percentage (_update_state none_speed_snapshot (entity auto_world)).2 = Some 40.
Proof.
  split.
  - apply (proj1 update_state_explicit_None none_mode_snapshot (entity auto_world)).
    vm_compute. reflexivity.
  - apply (proj2 update_state_explicit_None none_speed_snapshot (entity auto_world) Auto);
      vm_compute; reflexivity.
Defined.

Lemma update_state_full_snapshot_witness :
  _update_state off_snapshot (entity auto_world) =
    (Return (),
     {| _attr_available := true;
        _attr_preset_mode := None;
        _attr_percentage := Some 2 |}).
Proof.
  refine (proj1 (update_state_full_snapshot off_snapshot (entity auto_world) Off 3 _ _));
    vm_compute; reflexivity.
Defined.

Lemma update_state_preset_listed_witness :
  (∃ s, preset_mode (_update_state mode_only_snapshot fresh_entity).2 = Some s
        ∧ s ∈ _attr_preset_modes (FanMode := mode))
  ∧ preset_mode (_update_state unknown_snapshot fresh_entity).2 = Some "unknown".
Proof.
  split.
  - refine (proj1 (update_state_preset_listed bench_mode_wf bench_names_upper
                     mode_only_snapshot fresh_entity Night _ _) _ _).
    + vm_compute. reflexivity.
    + simpl. repeat constructor.
    + discriminate.
    + discriminate.
  - refine (proj1 (proj2 (update_state_preset_listed bench_mode_wf bench_names_upper
                            unknown_snapshot fresh_entity Unknown _ _) _)).
    + vm_compute. reflexivity.
    + simpl. repeat constructor.
    + reflexivity.
Defined.

Lemma set_percentage_trace_witness :
  issues (async_set_percentage 50) auto_world [set_fan_speed 60]
  ∧ issues (async_set_percentage 50) off_world [set_fan_mode Auto; set_fan_speed 60].
Proof.
  split.
  - apply (proj1 (set_percentage_trace 50 auto_world)). by eexists.
  - exact (proj1 (proj2 (set_percentage_trace 50 off_world)) eq_refl).
Defined.

Lemma set_preset_mode_trace_witness :
  issues (async_set_preset_mode "night") auto_world [set_fan_mode Night]
  ∧ issues (async_set_preset_mode "night") off_world
      [set_fan_mode Auto; set_fan_mode Night].
Proof.
  split.
  - refine (proj1 (set_preset_mode_trace "night" Night auto_world _ _) _).
    + reflexivity.
    + discriminate.
    + by eexists.
  - exact (proj2 (set_preset_mode_trace "night" Night off_world
                    eq_refl ltac:(discriminate)) eq_refl ltac:(discriminate)).
Defined.


Lemma set_preset_mode_auto_not_refreshed_witness :
  entity (async_set_preset_mode "auto" off_world).2 = entity off_world.
Proof.
  apply (set_preset_mode_auto_not_refreshed bench_mode_wf off_world); reflexivity.
Defined.

Lemma turn_off_then_set_percentage_witness :
  preset_mode (entity (async_turn_off auto_world).2) = None
  ∧ ∃ l, issues (async_set_percentage 50) (async_turn_off auto_world).2
           (set_fan_mode Auto :: l).
Proof.
  refine (turn_off_then_set_percentage bench_feeds auto_world
            (snapshot {| fan_mode := Off; fan_speed := 48 |})
            (entity auto_world) {| fan_mode := Off; fan_speed := 48 |} 50 _ _).
  - reflexivity.
  - vm_compute. reflexivity.
Defined.

Lemma set_percentage_shown_witness :
  (async_set_percentage 50 auto_world).1 = Return ()
  ∧ percentage (entity (async_set_percentage 50 auto_world).2) = Some 50.
Proof.
  refine (set_percentage_shown bench_feeds auto_world
            (snapshot {| fan_mode := Manual; fan_speed := 60 |})
            (entity auto_world) {| fan_mode := Manual; fan_speed := 60 |} 50 Manual
            _ _ _ _ _).
  - lia.
  - by eexists.
  - reflexivity.
  - vm_compute. reflexivity.
  - vm_compute. reflexivity.
Defined.
